(** * SSI-IoV: identity lifecycle, address pool and consent engine

    A shallow embedding of the core of the SSI-IoV platform:
    - [services/address_manager.py]   (the pool of ledger signing addresses),
    - [services/wallet_service.py]    (policies and the block list),
    - [services/did_services.py]      (identities, credentials, envelopes),
    - [api/server.py]                 (parsing of the oracle's answer),
    - [main.py]                       (the vehicle's inbox of mechanic requests),
    together with the properties stated about them.

    Python dictionaries whose order is observable (JSON objects, which
    [json.dumps] prints in insertion order) are association lists; the
    dictionaries used as plain maps are [gmap]s.  Text is a [string] of
    code points below 256. *)

From Stdlib Require Import ZArith Ascii String.
From stdpp Require Import gmap strings list.

Set Warnings "-register-all".

(* ===================================================================== *)
(** * JSON values and insertion-ordered dictionaries *)
(* ===================================================================== *)

Inductive json :=
| JNull
| JBool (b : bool)
| JNum (z : Z)
| JStr (s : string)
| JArr (l : list json)
| JObj (kv : list (string * json)).

(** Python truthiness of a decoded JSON value ([if x:], [if not x:]). *)
Definition truthy (j : json) : bool :=
  match j with
  | JNull => false
  | JBool b => b
  | JNum z => negb (z =? 0)%Z
  | JStr s => negb (String.eqb s "")
  | JArr l => match l with [] => false | _ => true end
  | JObj kv => match kv with [] => false | _ => true end
  end.

Module Dict.
(** A [dict] keeps its keys in insertion order, as Python's does. *)
Definition dict := list (string * json).

(** [d.get(k)] *)
Fixpoint get (k : string) (d : dict) : option json :=
  match d with
  | [] => None
  | (k', v) :: d' => if String.eqb k' k then Some v else get k d'
  end.

(** [k in d] *)
Definition mem (k : string) (d : dict) : bool :=
  match get k d with Some _ => true | None => false end.

(** [d[k] = v]: an existing key keeps its place, a new key goes last. *)
Fixpoint set (k : string) (v : json) (d : dict) : dict :=
  match d with
  | [] => [(k, v)]
  | (k', v') :: d' =>
      if String.eqb k' k then (k', v) :: d' else (k', v') :: set k v d'
  end.

(** [del d[k]]: [None] stands for the [KeyError] of a missing key. *)
Fixpoint del (k : string) (d : dict) : option dict :=
  match d with
  | [] => None
  | (k', v') :: d' =>
      if String.eqb k' k then Some d'
      else match del k d' with
           | Some r => Some ((k', v') :: r)
           | None => None
           end
  end.
End Dict.

(* ===================================================================== *)
(** * Text helpers: [str.lower], [in], [str.strip], and the four searches *)
(* ===================================================================== *)

Module Text.



(** [sub in s] *)
Fixpoint contains (sub s : string) : bool :=
  String.prefix sub s ||
  match s with
  | EmptyString => false
  | String _ s' => contains sub s'
  end.














End Text.

(* ===================================================================== *)
(** * The ledger and [services/blockchain_service.py] *)
(* ===================================================================== *)

Module BlockchainService.

Record user := {
  user_name : string;
  user_type : Z;
  entityDID : string;
  walletDID : string
}.

Record interaction := {
  source_address : string;
  destination_address : string;
  source_identifier : string;
  destination_identifier : string;
  interaction_type : string;
  payload : json
}.

(** Modelled from the spec: the smart contract is not part of the sources;
    it is consumed through the function surface of spec section 6
    (storeDIDDocument, the document getter, registerUser, users,
    getRegisteredAddresses, recordInteraction, didToAddress,
    storeCredential/getCredential).  A text kept on the ledger is
    represented by the JSON value it encodes, a missing entry reads as the
    empty text.  [reachable] tells whether the node answers (every call
    raises otherwise) and [receipts] lists, in order, the status of the
    transactions still to be mined. *)
Record ledger := {
  reachable : bool;
  balances : gmap string Z;
  registeredAddresses : list string;
  users : gmap string user;
  didDocuments : gmap string json;
  credentials : gmap string json;
  didToAddress : gmap string string;
  interactions : list interaction;
  receipts : list bool
}.

Definition with_receipts (r : list bool) (l : ledger) : ledger :=
  {| reachable := reachable l; balances := balances l;
     registeredAddresses := registeredAddresses l; users := users l;
     didDocuments := didDocuments l; credentials := credentials l;
     didToAddress := didToAddress l; interactions := interactions l;
     receipts := r |}.

Definition with_document (did : string) (doc : json) (l : ledger) : ledger :=
  {| reachable := reachable l; balances := balances l;
     registeredAddresses := registeredAddresses l; users := users l;
     didDocuments := <[did := doc]> (didDocuments l);
     credentials := credentials l;
     didToAddress := didToAddress l; interactions := interactions l;
     receipts := receipts l |}.


Definition with_user (account : string) (u : user) (l : ledger) : ledger :=
  {| reachable := reachable l; balances := balances l;
     registeredAddresses := registeredAddresses l ++ [account];
     users := <[account := u]> (users l);
     didDocuments := didDocuments l; credentials := credentials l;
     didToAddress := <[entityDID u := account]> (didToAddress l);
     interactions := interactions l;
     receipts := receipts l |}.

Definition with_interaction (i : interaction) (l : ledger) : ledger :=
  {| reachable := reachable l; balances := balances l;
     registeredAddresses := registeredAddresses l; users := users l;
     didDocuments := didDocuments l; credentials := credentials l;
     didToAddress := didToAddress l;
     interactions := interactions l ++ [i];
     receipts := receipts l |}.

(** What the node answers to the two queries of the address pool; [None]
    is a call that raises. *)
Record chain_view := {
  get_balance : string -> option Z;
  users_isRegistered : string -> option bool
}.

Definition view (l : ledger) : chain_view :=
  {| get_balance := fun a =>
       if reachable l then Some (default 0%Z (balances l !! a)) else None;
     users_isRegistered := fun a =>
       if reachable l
       then Some (match users l !! a with Some _ => true | None => false end)
       else None |}.

(** [is_address_registered]: the [isRegistered] field of [users(address)],
    and [False] when the call raises. *)
Definition is_address_registered (cv : chain_view) (address : string) : bool :=
  match users_isRegistered cv address with
  | Some b => b
  | None => false
  end.

(** [_build_and_send_transaction] followed by the wait for the receipt:
    the status of the transaction, and the ledger once it is mined. *)
Definition transact (effect : ledger -> ledger) (l : ledger) : bool * ledger :=
  if reachable l then
    match receipts l with
    | true :: r => (true, effect (with_receipts r l))
    | false :: r => (false, with_receipts r l)
    | [] => (false, l)
    end
  else (false, l).

(** [store_did_document(did, document)] *)
Definition store_did_document (did : string) (document : json) (l : ledger)
  : bool * ledger :=
  transact (with_document did document) l.

Definition _get_user_type_name (type_id : Z) : string :=
  if (type_id =? 0)%Z then "Individual"
  else if (type_id =? 1)%Z then "Mechanic"
  else if (type_id =? 2)%Z then "Insurance Provider"
  else if (type_id =? 3)%Z then "Roadside Unit"
  else if (type_id =? 4)%Z then "Vehicle Manufacturer"
  else "Unknown".

Definition default_user : user :=
  {| user_name := ""; user_type := 0; entityDID := ""; walletDID := "" |}.

(** The loop of [get_did_document] over the registered addresses: the
    document built from the first user whose entity DID is [did]. *)
Fixpoint document_of_users (l : ledger) (did : string) (addresses : list string)
  : option json :=
  match addresses with
  | [] => None
  | address :: rest =>
      let u := default default_user (users l !! address) in
      if String.eqb (entityDID u) did then
        Some (JObj [("@context", JArr [JStr "https://www.w3.org/ns/did/v1"]);
                    ("id", JStr did);
                    ("controller", JStr address);
                    ("type", JStr (_get_user_type_name (user_type u)));
                    ("name", JStr (user_name u));
                    ("entityDid", JStr (entityDID u));
                    ("walletDid", JStr (walletDID u));
                    ("service", JArr [])])
      else document_of_users l did rest
  end.

(** [get_did_document(did)]: the stored document, else one rebuilt from the
    user registry, else [None]; [None] too when a call raises. *)
Definition get_did_document (did : string) (l : ledger) : option json :=
  if reachable l then
    match didDocuments l !! did with
    | Some doc => Some doc
    | None => document_of_users l did (registeredAddresses l)
    end
  else None.




Definition upper_char (c : ascii) : ascii :=
  let n := nat_of_ascii c in
  if (97 <=? n) && (n <=? 122) then ascii_of_nat (n - 32) else c.

(** [user_type.upper().replace(' ', '_')].  Only the letters a-z are
    raised: no other code point becomes part of a member name of the enum. *)
Fixpoint enum_key (s : string) : string :=
  match s with
  | EmptyString => EmptyString
  | String c s' =>
      String (if Ascii.eqb c " "%char then "_"%char else upper_char c) (enum_key s')
  end.

(** [UserType[...].value]; [None] is the [KeyError]. *)
Definition UserType (key : string) : option Z :=
  if String.eqb key "INDIVIDUAL" then Some 0%Z
  else if String.eqb key "MECHANIC" then Some 1%Z
  else if String.eqb key "INSURANCE_PROVIDER" then Some 2%Z
  else if String.eqb key "ROADSIDE_UNIT" then Some 3%Z
  else if String.eqb key "VEHICLE_MANUFACTURER" then Some 4%Z
  else if String.eqb key "CAR" then Some 5%Z
  else None.

(** [register_user(name, user_type, entity_did, wallet_did)] sent from
    [account]; only the success flag of the returned pair is kept. *)
Definition register_user (account name user_type entity_did wallet_did : string)
    (l : ledger) : bool * ledger :=
  match UserType (enum_key user_type) with
  | None => (false, l)
  | Some ty =>
      if negb (reachable l) then (false, l)
      else match users l !! account with
           | Some _ => (false, l)
           | None =>
               transact (with_user account
                           {| user_name := name; user_type := ty;
                              entityDID := entity_did; walletDID := wallet_did |}) l
           end
  end.

(** [record_interaction(...)]: the transaction is sent and its hash
    returned without waiting for the receipt; [None] is a call that
    raises.  The record is on the ledger once the transaction is mined. *)
Definition record_interaction (i : interaction) (l : ledger) : option ledger :=
  if reachable l then Some (snd (transact (with_interaction i) l)) else None.

End BlockchainService.

(* ===================================================================== *)
(** * [services/address_manager.py] *)
(* ===================================================================== *)

Module AddressManager.
Import BlockchainService.

Record address_data := { address : string; private_key : string }.

(** [self.addresses]: the available list and the used map. *)
Record pool := {
  available : list address_data;
  used : gmap string address_data
}.

(** The manager: the pool in memory and the content of [addresses.json]
    ([None] when the file does not exist). *)
Record manager := {
  addresses : pool;
  addresses_file : option pool
}.

Definition test_accounts : list address_data := [
  {| address := "0x54b99Dc1C2f505CF0fAA465eCdA78c872b3749cC";
     private_key := "0xd09777239f86e807e5fbd5db02fe4cff51dcbc77b598dfcea6c62aea4117acd8" |};
  {| address := "0xF86C6fD8d11Bd7a5C4F19301BA6ab4Da0B69B206";
     private_key := "0xf30129e3a83a00cc00ffd35f43e6736102a64996074a01ea92abe12767e5fa4f" |};
  {| address := "0x53799B8c448521A6bA35CC4C78DD66dD804ce8a8";
     private_key := "0x319b7d2ee2f737787132c25e23a165467ae9f33e894bd27c80a840506b38014c" |};
  {| address := "0xdc2190cF7895688D2FEE20716cB7dD6dEBB30b56";
     private_key := "0x17fb49e5ec17ca0be9600cc9bc20fe953620c98cd50ddb3ca64296a158f5e089" |};
  {| address := "0x71980E1D5E4f176ADFE7bd90b968045B389274c7";
     private_key := "0x0350589197961a95ce7b2f20c6572e2935e2d1b71ea148cb8db115bd529dd0cf" |};
  {| address := "0x1A23AD04C94FEEe69d12b9F95b1F83fff0B6EB23";
     private_key := "0xe99d4ee80bde64c73c7677e8eea1290f3bf8141de6d1cbe6554f4ff22900b7cc" |};
  {| address := "0xA6b36a8E07e04F1295E609bc523fb9bC21900Bf1";
     private_key := "0xf3b9e5106823ff4393427367423ced5d74c8e8ffed38266d16808502e99b123b" |};
  {| address := "0x44E4947b4E64DB6AE0697F7fc479f0BC7ec70CC7";
     private_key := "0xe1d9daa75524b61b8abd701ccdc9d16b8bea6397ae9bf6df0fe91d90f4841516" |};
  {| address := "0xCDc10fDFBfF34Cb71180857D89756639799Ba78d";
     private_key := "0xb69bcb1262256040a2e1f90c31245a0d89664e20402bd8a7595c5ff7b01d0c07" |};
  {| address := "0xF8a4c9d195B8Fcc4d453daB43afF54ba93d36311";
     private_key := "0x5edc5c96c4cd7e3e3378664d1380063df70fee8d539356650d2dd9b8262bad47" |}
].

Definition empty_pool : pool := {| available := []; used := ∅ |}.

(** [_save_addresses]: the file receives the whole pool. *)
Definition _save_addresses (p : pool) : manager :=
  {| addresses := p; addresses_file := Some p |}.

(** [set(addr['address'] for addr in self.addresses['used'].values())] *)
Definition used_addresses (u : gmap string address_data) : list string :=
  (fun kd => address kd.2) <$> map_to_list u.

(** The loop of [_load_addresses] over the candidate accounts; [None] is
    an exception escaping to the outer handler ([get_balance] raising). *)
Fixpoint scan (cv : chain_view) (taken : list string) (accounts : list address_data)
  : option (list address_data) :=
  match accounts with
  | [] => Some []
  | account :: rest =>
      if bool_decide (address account ∈ taken) then scan cv taken rest
      else
        match get_balance cv (address account) with
        | None => None
        | Some balance =>
            match scan cv taken rest with
            | None => None
            | Some more =>
                if (0 <? balance)%Z
                   && negb (is_address_registered cv (address account))
                then Some (account :: more)
                else Some more
            end
        end
  end.

(** [stored_data.get('used', {})] when the file exists, else the empty map. *)
Definition stored_used (m : manager) : gmap string address_data :=
  match addresses_file m with
  | Some p => used p
  | None => ∅
  end.

(** [_load_addresses] *)
Definition _load_addresses (cv : chain_view) (m : manager) : manager :=
  match scan cv (used_addresses (stored_used m)) test_accounts with
  | Some found => _save_addresses {| available := found; used := stored_used m |}
  | None => _save_addresses empty_pool
  end.

(** [AddressManager(blockchain_service)] on a given state of the file. *)
Definition new (cv : chain_view) (file : option pool) : manager :=
  _load_addresses cv {| addresses := empty_pool; addresses_file := file |}.

(** [pop(0)] from the available list, bind, save. *)
Definition take_first (user_id : string) (m : manager)
  : option (string * string) * manager :=
  match available (addresses m) with
  | address_data :: rest =>
      (Some (address address_data, private_key address_data),
       _save_addresses {| available := rest;
                          used := <[user_id := address_data]> (used (addresses m)) |})
  | [] => (None, m)
  end.

(** [get_address(user_id)] *)
Definition get_address (cv : chain_view) (user_id : string) (m : manager)
  : option (string * string) * manager :=
  match used (addresses m) !! user_id with
  | Some d => (Some (address d, private_key d), m)
  | None =>
      match available (addresses m) with
      | _ :: _ => take_first user_id m
      | [] => take_first user_id (_load_addresses cv m)
      end
  end.

(** [release_address(user_id)].  [is_address_registered] handles its own
    exceptions, so the handler around the call is never entered. *)
Definition release_address (cv : chain_view) (user_id : string) (m : manager)
  : manager :=
  match used (addresses m) !! user_id with
  | Some address_data =>
      let used' := delete user_id (used (addresses m)) in
      if is_address_registered cv (address address_data)
      then _save_addresses {| available := available (addresses m); used := used' |}
      else _save_addresses {| available := available (addresses m) ++ [address_data];
                              used := used' |}
  | None => m
  end.




(** Repeated [get_address(user_id)], with the results in order. *)
Fixpoint get_address_repeatedly (cvs : list chain_view) (user_id : string)
    (m : manager) : list (option (string * string)) * manager :=
  match cvs with
  | [] => ([], m)
  | cv :: rest =>
      let '(r, m1) := get_address cv user_id m in
      let '(rs, m2) := get_address_repeatedly rest user_id m1 in
      (r :: rs, m2)
  end.




End AddressManager.

(* ===================================================================== *)
(** * [services/wallet_service.py] *)
(* ===================================================================== *)

(** Python's [==] on decoded JSON: dictionaries compare without regard to
    order, and [True == 1]. *)
Fixpoint json_eqb (a b : json) : bool :=
  match a, b with
  | JNull, JNull => true
  | JBool x, JBool y => Bool.eqb x y
  | JBool x, JNum z | JNum z, JBool x => (z =? (if x then 1 else 0))%Z
  | JNum x, JNum y => (x =? y)%Z
  | JStr x, JStr y => String.eqb x y
  | JArr x, JArr y =>
      (fix all2 (x y : list json) : bool :=
         match x, y with
         | [], [] => true
         | u :: x', v :: y' => json_eqb u v && all2 x' y'
         | _, _ => false
         end) x y
  | JObj x, JObj y =>
      (length x =? length y) &&
      (fix all (x : list (string * json)) : bool :=
         match x with
         | [] => true
         | (k, u) :: x' =>
             match Dict.get k y with
             | Some v => json_eqb u v && all x'
             | None => false
             end
         end) x
  | _, _ => false
  end.

Module WalletService.

Record policy := {
  share_with : list string;
  requires_consent : bool;
  auto_share_emergency : bool
}.

Record wallet := {
  wallet_did : string;
  wallet_type : string;
  policies : gmap string policy;
  pending_requests : list Dict.dict
}.

Record blocked_user := {
  blocked_did : string;
  blocked_at : string;
  reason : string
}.

Record wallet_service := {
  wallets : gmap string wallet;
  messages : gmap string (list Dict.dict);
  blocked_users : gmap string (list blocked_user)
}.

Definition default_policies : gmap string policy :=
  <["location" := {| share_with := ["emergency"];
                     requires_consent := true; auto_share_emergency := true |}]>
  (<["vehicle_info" := {| share_with := ["emergency"; "service"; "insurance"];
                          requires_consent := true; auto_share_emergency := true |}]>
  (<["sensor_data" := {| share_with := ["emergency"; "roadside_unit"];
                         requires_consent := true; auto_share_emergency := true |}]>
  (<["driving_behavior" := {| share_with := ["emergency"; "insurance"];
                              requires_consent := true; auto_share_emergency := false |}]>
  (<["maintenance_history" := {| share_with := ["service"; "insurance"];
                                 requires_consent := true; auto_share_emergency := false |}]>
   ∅)))).

Definition with_wallet (did : string) (w : wallet) (ws : wallet_service) : wallet_service :=
  {| wallets := <[did := w]> (wallets ws); messages := messages ws;
     blocked_users := blocked_users ws |}.

(** [create_wallet(did, entity_type)] *)
Definition create_wallet (did entity_type : string) (ws : wallet_service)
  : wallet_service :=
  match wallets ws !! did with
  | Some _ => ws
  | None =>
      {| wallets := <[did := {| wallet_did := did; wallet_type := entity_type;
                                policies := default_policies;
                                pending_requests := [] |}]> (wallets ws);
         messages := <[did := []]> (messages ws);
         blocked_users := <[did := []]> (blocked_users ws) |}
  end.

(** [check_permission(requester_type, owner_did, data_type, is_emergency)] *)
Definition check_permission (ws : wallet_service)
    (requester_type owner_did data_type : string) (is_emergency : bool) : bool :=
  match wallets ws !! owner_did with
  | None => false
  | Some wallet =>
      match policies wallet !! data_type with
      | None => false
      | Some policy =>
          if is_emergency && auto_share_emergency policy then true
          else if negb (bool_decide (requester_type ∈ share_with policy)) then false
          else if requires_consent policy && negb is_emergency then false
          else true
      end
  end.


(** [any(user['did'] == user_did for user in ...)] *)
Definition is_listed (user_did : string) (l : list blocked_user) : bool :=
  existsb (fun user => String.eqb (blocked_did user) user_did) l.

(** [block_user(did, user_did, reason)] at time [now] *)
Definition block_user (now did user_did why : string) (ws : wallet_service)
  : wallet_service :=
  let current := default [] (blocked_users ws !! did) in
  {| wallets := wallets ws; messages := messages ws;
     blocked_users :=
       <[did := if is_listed user_did current then current
                else current ++ [{| blocked_did := user_did; blocked_at := now;
                                    reason := why |}]]> (blocked_users ws) |}.

(** [unblock_user(did, user_did)] *)
Definition unblock_user (did user_did : string) (ws : wallet_service) : wallet_service :=
  match blocked_users ws !! did with
  | Some l =>
      {| wallets := wallets ws; messages := messages ws;
         blocked_users :=
           <[did := filter (fun user => blocked_did user <> user_did) l]>
             (blocked_users ws) |}
  | None => ws
  end.

(** [add_pending_request(did, request)] at time [now] ([stamp] is the
    same instant in the [%Y%m%d%H%M%S] format).  The identifier given to a
    request without one is built from its sender when that is text. *)
Definition add_pending_request (now stamp did : string) (request : Dict.dict)
    (ws : wallet_service) : wallet_service :=
  let ws1 := create_wallet did "unknown" ws in
  let r1 := if Dict.mem "timestamp" request then request
            else Dict.set "timestamp" (JStr now) request in
  let sender := match Dict.get "sender_did" r1 with
                | Some (JStr s) => s
                | _ => "unknown"
                end in
  let r2 := if Dict.mem "id" r1 then r1
            else Dict.set "id" (JStr (sender +:+ "_" +:+ stamp)) r1 in
  match wallets ws1 !! did with
  | Some w =>
      with_wallet did {| wallet_did := wallet_did w; wallet_type := wallet_type w;
                         policies := policies w;
                         pending_requests := pending_requests w ++ [r2] |} ws1
  | None => ws1
  end.

(** [store_didcomm_message(did, message)] at time [now] *)
Definition store_didcomm_message (now stamp did : string) (message : Dict.dict)
    (ws : wallet_service) : wallet_service :=
  let m1 := if Dict.mem "timestamp" message then message
            else Dict.set "timestamp" (JStr now) message in
  let ws1 := {| wallets := wallets ws;
                messages := <[did := default [] (messages ws !! did) ++ [m1]]> (messages ws);
                blocked_users := blocked_users ws |} in
  match Dict.get "type" m1 with
  | Some (JStr "request") => add_pending_request now stamp did m1 ws1
  | _ => ws1
  end.

(** [remove_pending_request(did, request)] *)
Definition remove_pending_request (did : string) (request : Dict.dict)
    (ws : wallet_service) : wallet_service :=
  match wallets ws !! did with
  | None => ws
  | Some w =>
      let keep (req : Dict.dict) : bool :=
        if Dict.mem "id" request
        then negb (json_eqb (default JNull (Dict.get "id" req))
                            (default JNull (Dict.get "id" request)))
        else negb (json_eqb (JObj req) (JObj request)) in
      with_wallet did {| wallet_did := wallet_did w; wallet_type := wallet_type w;
                         policies := policies w;
                         pending_requests := List.filter keep (pending_requests w) |} ws
  end.

(** The three outcomes that the design gives to a permission check. *)
Inductive outcome := AutoApproved | AutoDenied | NeedsWalletApproval.

(** The precedence as the specification words it, for one policy. *)
Definition checkPermission_spec (requester_type : string) (is_emergency : bool)
    (p : policy) : outcome :=
  if is_emergency && auto_share_emergency p then AutoApproved
  else if negb (bool_decide (requester_type ∈ share_with p)) then AutoDenied
  else if requires_consent p && negb is_emergency then NeedsWalletApproval
  else AutoApproved.

End WalletService.

(* ===================================================================== *)
(** * [services/did_services.py] *)
(* ===================================================================== *)

Module DIDService.
Import BlockchainService AddressManager.

(** The service: the ledger it talks to, the account of
    [self.blockchain_service], its address manager and the key files of
    its [DIDWallet] (DID to private and public PEM). *)
Record did_service := {
  chain : ledger;
  account : string * string;
  address_manager : manager;
  wallet : gmap string (string * string)
}.

Definition with_chain (l : ledger) (s : did_service) : did_service :=
  {| chain := l; account := account s; address_manager := address_manager s;
     wallet := wallet s |}.

Definition with_account (a : string * string) (s : did_service) : did_service :=
  {| chain := chain s; account := a; address_manager := address_manager s;
     wallet := wallet s |}.

Definition with_manager (m : manager) (s : did_service) : did_service :=
  {| chain := chain s; account := account s; address_manager := m;
     wallet := wallet s |}.

Definition with_keys (did : string) (keys : string * string) (s : did_service)
  : did_service :=
  {| chain := chain s; account := account s; address_manager := address_manager s;
     wallet := <[did := keys]> (wallet s) |}.

(** [self.address_manager.get_address(did)] *)
Definition acquire (did : string) (s : did_service)
  : option (string * string) * did_service :=
  let '(info, m) := get_address (view (chain s)) did (address_manager s) in
  (info, with_manager m s).

(** [self.address_manager.release_address(did)] *)
Definition release (did : string) (s : did_service) : did_service :=
  with_manager (release_address (view (chain s)) did (address_manager s)) s.

(** [set_account_address(did)] *)
Definition set_account_address (did : string) (s : did_service) : did_service :=
  match acquire did s with
  | (None, s1) => s1
  | (Some (address, private_key), s1) =>
      if String.eqb address "" || String.eqb private_key "" then s1
      else with_account (address, private_key) s1
  end.

(** ** DID documents *)

Record DIDDocument := {
  did : string;
  info : list json;
  public_key : string;
  created : string;
  service_endpoints : list json;
  type : list json;
  controller : option string;
  credentials : list json
}.

(** [DIDDocument(did, public_key)] created at [now] *)
Definition new_document (d pk now : string) : DIDDocument :=
  {| did := d; info := []; public_key := pk; created := now;
     service_endpoints := []; type := []; controller := None; credentials := [] |}.

(** [to_dict] *)
Definition to_dict (doc : DIDDocument) : json :=
  let key_id := did doc +:+ "#keys-1" in
  let verification_method :=
    JObj [("id", JStr key_id); ("type", JStr "RsaVerificationKey2018");
          ("controller", JStr (did doc)); ("publicKeyPem", JStr (public_key doc))] in
  let base :=
    [("@context", JArr [JStr "https://www.w3.org/2018/credentials/v1";
                        JStr "https://www.w3.org/ns/did/v1";
                        JStr "https://w3id.org/security/v1"]);
     ("id", JStr (did doc));
     ("type", JArr (type doc));
     ("info", JArr (info doc));
     ("created", JStr (created doc));
     ("verificationMethod", JArr [verification_method]);
     ("authentication", JArr [JStr key_id]);
     ("assertionMethod", JArr [JStr key_id]);
     ("credentials", JArr (credentials doc));
     ("service", JArr (service_endpoints doc))] in
  match controller doc with
  | Some c => if String.eqb c "" then JObj base else JObj (Dict.set "controller" (JStr c) base)
  | None => JObj base
  end.

(** ** Credentials *)

(** What the world supplies to one issuance: the fresh identifier, the two
    readings of the clock and the RSA-PSS signature (salted, hence not a
    function of the message alone) as base64 text. *)
Record issuance := {
  credential_uuid : string;
  issuance_date : string;
  proof_created : string;
  rsa_pss_sign : string -> json -> string
}.



Definition proof (e : issuance) (issuer_did signature : string) : json :=
  JObj [("type", JStr "RsaSignature2018");
        ("created", JStr (proof_created e));
        ("verificationMethod", JStr (issuer_did +:+ "#keys-1"));
        ("signatureValue", JStr signature)].



(** ** Creation of an identity *)

(** The calls of [create_did] that may raise between the acquisition of
    the address and the last ledger write. *)
Inductive fault := ServiceSetup | KeyGeneration | KeyStorage.

Record creation := {
  entity_uuid : string;
  wallet_uuid : string;
  entity_keys : string * string;
  wallet_keys : string * string;
  entity_created : string;
  wallet_created : string;
  raises : option fault
}.

Definition fault_eqb (a b : fault) : bool :=
  match a, b with
  | ServiceSetup, ServiceSetup | KeyGeneration, KeyGeneration
  | KeyStorage, KeyStorage => true
  | _, _ => false
  end.

Definition raises_at (e : creation) (f : fault) : bool :=
  match raises e with
  | Some g => fault_eqb g f
  | None => false
  end.

Definition entity_did_of (e : creation) : string := "did:ssi:entity:" +:+ entity_uuid e.
Definition wallet_did_of (e : creation) : string := "did:ssi:wallet:" +:+ wallet_uuid e.

Definition entity_document (e : creation) : DIDDocument :=
  let entity_did := entity_did_of e in
  let wallet_did := wallet_did_of e in
  {| did := entity_did; info := []; public_key := snd (entity_keys e);
     created := entity_created e;
     service_endpoints :=
       [JObj [("id", JStr (wallet_did +:+ "#wallet"));
              ("@type", JArr [JStr "ServiceEndpoint"]);
              ("serviceEndpoint", JStr ("https://api.example.org/wallet/" +:+ wallet_did));
              ("controller", JStr entity_did)]];
     type := [JStr "Person"; JStr "VerifiableCredential"];
     controller := None; credentials := [] |}.

Definition wallet_document (e : creation) : DIDDocument :=
  let entity_did := entity_did_of e in
  let wallet_did := wallet_did_of e in
  {| did := wallet_did; info := []; public_key := snd (wallet_keys e);
     created := wallet_created e;
     service_endpoints :=
       [JObj [("id", JStr (entity_did +:+ "#entity"));
              ("type", JArr [JStr "WalletService"]);
              ("controller", JStr entity_did);
              ("serviceEndpoint", JStr ("https://api.example.org/wallet/" +:+ entity_did))]];
     type := [JStr "VerifiableCredential"; JStr "Wallet"];
     controller := None; credentials := [] |}.

(** [create_did(user_type, name)].  The handler of the outer [try] releases
    the address only [if 'user_id' in locals()], and the function has no
    local of that name: a raised exception returns [None] with the state
    as it then is. *)
Definition create_did (e : creation) (user_type name : string) (s : did_service)
  : option json * did_service :=
  let entity_did := entity_did_of e in
  let wallet_did := wallet_did_of e in
  match acquire entity_did s with
  | (None, s1) => (None, s1)
  | (Some (address, private_key), s1) =>
      if raises_at e ServiceSetup then (None, s1) else
      let s2 := with_account (address, private_key) s1 in
      if raises_at e KeyGeneration then (None, s2) else
      let '(success, l3) := register_user address name user_type entity_did wallet_did
                                          (chain s2) in
      let s3 := with_chain l3 s2 in
      if negb success then (None, release entity_did s3) else
      if raises_at e KeyStorage then (None, s3) else
      let s4 := with_keys wallet_did (wallet_keys e)
                  (with_keys entity_did (entity_keys e) s3) in
      let '(status, l5) := store_did_document entity_did (to_dict (entity_document e))
                                              (chain s4) in
      let s5 := with_chain l5 s4 in
      if negb status then (None, release entity_did s5) else
      let '(status', l6) := store_did_document wallet_did (to_dict (wallet_document e))
                                               (chain s5) in
      let s6 := with_chain l6 s5 in
      if negb status' then (None, release entity_did s6) else
      (Some (JObj [("entity_did", JStr entity_did);
                   ("wallet_did", JStr wallet_did);
                   ("entity_did_document", to_dict (entity_document e));
                   ("wallet_did_document", to_dict (wallet_document e))]),
       s6)
  end.

(** ** Updates of a stored document *)

(** [if key not in doc: doc[key] = []] then [doc[key].append(item)];
    [None] is the exception raised when [doc[key]] is no list. *)
Definition append_to (key : string) (item : json) (doc : Dict.dict) : option Dict.dict :=
  match Dict.get key doc with
  | None => Some (Dict.set key (JArr [item]) doc)
  | Some (JArr l) => Some (Dict.set key (JArr (l ++ [item])) doc)
  | Some _ => None
  end.

(** The ownership transfer on a decoded vehicle document: lines 643-660
    of [update_did_document].  [None] is an exception (a document, an
    [info] entry or a [previous_owners] entry of the wrong shape). *)
Definition transfer_owner (new_owner : json) (did_doc : Dict.dict) : option Dict.dict :=
  let info :=
    match Dict.get "info" did_doc with
    | None => Some [JObj []]
    | Some (JArr []) => Some [JObj []]
    | Some (JArr l) => Some l
    | Some _ => None
    end in
  match info with
  | Some (JObj owner_info :: rest) =>
      let current := default JNull (Dict.get "owner_did" owner_info) in
      match append_to "previous_owners" current owner_info with
      | Some owner_info1 =>
          let owner_info2 := Dict.set "owner_did" new_owner owner_info1 in
          Some (Dict.set "info" (JArr (JObj owner_info2 :: rest)) did_doc)
      | None => None
      end
  | _ => None
  end.

(** [update_did_document(did, car_did, credential)]: [Some true] is the
    returned status, [None] the returned [None].  A stored value that is
    not a JSON object ends in the exception handler. *)
Definition update_did_document (did : string) (car_did : option string)
    (credential : option json) (s : did_service) : option bool * did_service :=
  let absent (x : option string) :=
    match x with Some c => String.eqb c "" | None => true end in
  let given (x : option json) :=
    match x with Some c => truthy c | None => false end in
  let store (target : string) (doc : option Dict.dict) (s1 : did_service) :=
    match doc with
    | Some d =>
        let '(status, l) := store_did_document target (JObj d) (chain s1) in
        (if status then Some true else None, with_chain l s1)
    | None => (None, s1)
    end in
  if absent car_did then
    let s1 := set_account_address did s in
    match get_did_document did (chain s1) with
    | Some (JObj ((_ :: _) as owner_doc)) =>
        store did (append_to "info" (default JNull credential) owner_doc) s1
    | Some j => if truthy j then (None, s1) else (None, release did s1)
    | None => (None, release did s1)
    end
  else if given credential then
    let s1 := set_account_address did s in
    match get_did_document did (chain s1) with
    | Some (JObj ((_ :: _) as did_doc)) =>
        store did (append_to "credentials" (default JNull credential) did_doc) s1
    | _ => (None, s1)
    end
  else
    let car := default "" car_did in
    let s1 := set_account_address car s in
    match get_did_document car (chain s1) with
    | Some (JObj ((_ :: _) as did_doc)) =>
        store car (transfer_owner (JStr did) did_doc) s1
    | _ => (None, s1)
    end.

(** ** Envelopes *)

(** [encrypt_didcomm_message(message, sender_key, recipient_key)] *)
Definition encrypt_didcomm_message (message : Dict.dict) (sender_key recipient_key : string)
  : Dict.dict :=
  Dict.set "recipient_key" (JStr recipient_key)
    (Dict.set "sender_key" (JStr sender_key)
       (Dict.set "encrypted" (JBool true) message)).

(** [decrypt_didcomm_message(encrypted_message, decryption_key)]; [None]
    is the [KeyError] of a missing marker. *)
Definition decrypt_didcomm_message (encrypted_message : Dict.dict) (decryption_key : string)
  : option Dict.dict :=
  match Dict.del "encrypted" encrypted_message with
  | Some m1 =>
      match Dict.del "sender_key" m1 with
      | Some m2 => Dict.del "recipient_key" m2
      | None => None
      end
  | None => None
  end.

(** [create_didcomm_message(...)] with the identifier and the time drawn
    by the call. *)
Definition create_didcomm_message (uuid now sender_did recipient_did message_type : string)
    (body : json) (reply_to reply_url : option string) : Dict.dict :=
  let message :=
    [("type", JStr ("https://didcomm.org/iov/1.0/" +:+ message_type));
     ("id", JStr uuid);
     ("from", JStr sender_did);
     ("to", JArr [JStr recipient_did]);
     ("created_time", JStr now);
     ("body", body)] in
  let message1 :=
    match reply_to with
    | Some t => if String.eqb t "" then message else Dict.set "thid" (JStr t) message
    | None => message
    end in
  match reply_url with
  | Some u => if String.eqb u "" then message1 else Dict.set "reply_url" (JStr u) message1
  | None => message1
  end.

(** [record_interaction(...)]: [true] is a transaction hash, [false] the
    [False] returned when a call raises. *)
Definition record_interaction (i : interaction) (s : did_service) : bool * did_service :=
  let s1 := set_account_address (source_identifier i) s in
  match BlockchainService.record_interaction i (chain s1) with
  | Some l => (true, with_chain l s1)
  | None => (false, s1)
  end.

(** ** Reading the owner history of a vehicle document *)

Definition first_info (doc : json) : Dict.dict :=
  match doc with
  | JObj d =>
      match Dict.get "info" d with
      | Some (JArr (JObj owner_info :: _)) => owner_info
      | _ => []
      end
  | _ => []
  end.

Definition previous_owners_of (doc : json) : list json :=
  match Dict.get "previous_owners" (first_info doc) with
  | Some (JArr l) => l
  | _ => []
  end.

Definition owner_did_of (doc : json) : option json :=
  Dict.get "owner_did" (first_info doc).

(** The first [info] block of a vehicle document names [current] as the
    owner and lists [previous] as the earlier ones (a missing list counts
    as empty). *)
Definition owner_history (doc : Dict.dict) (current : json) (previous : list json)
  : Prop :=
  exists owner_info rest,
    Dict.get "info" doc = Some (JArr (JObj owner_info :: rest))
    /\ Dict.get "owner_did" owner_info = Some current
    /\ (Dict.get "previous_owners" owner_info = Some (JArr previous)
        \/ (previous = [] /\ Dict.get "previous_owners" owner_info = None)).

(** Successive transfers of the vehicle [car_did] to the given owners;
    the result lists the returned statuses. *)
Fixpoint transfer_all (car_did : string) (owners : list string) (s : did_service)
  : list (option bool) * did_service :=
  match owners with
  | [] => ([], s)
  | o :: rest =>
      let '(r, s1) := update_did_document o (Some car_did) None s in
      let '(rs, s2) := transfer_all car_did rest s1 in
      (r :: rs, s2)
  end.

End DIDService.

(* ===================================================================== *)
(** * [api/server.py]: the answer to an inbound request *)
(* ===================================================================== *)

Module Server.
Import Text BlockchainService.











End Server.

(* ===================================================================== *)
(** * [main.py]: the vehicle's inbox of mechanic requests *)
(* ===================================================================== *)

Module Platform.
Import Text BlockchainService WalletService.

(** The services of the platform and the number of calls made to the
    oracle so far. *)
Record platform := {
  did_service : DIDService.did_service;
  wallet_service : WalletService.wallet_service;
  oracle_calls : nat
}.

(** What one pass over a pending request meets.

    Modelled from the spec: [LLMService.process_request], which [main.py]
    calls, is not defined in the sources; by spec section 4.3 it is the
    invocation of the external text-generation oracle, here
    [process_request] ([None] when the call raises). *)
Record visit := {
  process_request : json -> option string;
  sensors : option Dict.dict;
  speed_text : string;
  clicked : string -> bool;
  uuid : string;
  now : string;
  stamp : string;
  vehicle_address : string;
  mechanic_address : string
}.

(** How the body of the loop ends: with the next request, or with
    [st.rerun()]. *)
Inductive flow := Continue | Rerun.

Definition count_call (p : platform) : platform :=
  {| did_service := did_service p; wallet_service := wallet_service p;
     oracle_calls := S (oracle_calls p) |}.

(** Store the response, drop the request, record the interaction. *)
Definition send_response (v : visit) (vehicle_did sender_did : string)
    (request : Dict.dict) (response_data : Dict.dict) (p : platform) : platform :=
  let response_message :=
    DIDService.create_didcomm_message (uuid v) (now v) vehicle_did sender_did
      "mechanic_response" (JObj response_data) None None in
  let ws := remove_pending_request vehicle_did request
              (store_didcomm_message (now v) (stamp v) vehicle_did response_message
                 (wallet_service p)) in
  let '(_, ds) :=
    DIDService.record_interaction
      {| source_address := vehicle_address v;
         destination_address := mechanic_address v;
         source_identifier := vehicle_did;
         destination_identifier := sender_did;
         interaction_type := "mechanic_response";
         payload := JObj response_data |} (did_service p) in
  {| did_service := ds; wallet_service := ws; oracle_calls := oracle_calls p |}.

(** What a [for] loop or a [join] runs over; [None] is the [TypeError] of
    a value that cannot be iterated. *)
Definition iterate (j : json) : option (list json) :=
  match j with
  | JArr l => Some l
  | JStr s => Some ((fun c => JStr (String c EmptyString)) <$> list_ascii_of_string s)
  | JObj d => Some ((fun kv => JStr kv.1) <$> d)
  | _ => None
  end.

(** [', '.join(x)] does not raise. *)
Definition joinable (j : json) : bool :=
  match iterate j with
  | Some l => forallb (fun x => match x with JStr _ => true | _ => false end) l
  | None => false
  end.

(** [{k: simulator.sensors[k] for k in request['requested_data'] if k in
    simulator.sensors}] *)
Definition requested_sensors (sensors : Dict.dict) (requested : list json) : Dict.dict :=
  fold_left
    (fun d k => match k with
                | JStr key => match Dict.get key sensors with
                              | Some x => Dict.set key x d
                              | None => d
                              end
                | _ => d
                end) requested [].

(** The body of [for request in pending_requests] in the inbox tab of
    [_mechanic_vehicle_interaction], lines 910-1092.  [blocked_users] is
    the list read with [get_blocked_users] when the page was drawn.  An
    exception inside the body is reported and the loop goes on; the first
    place where one may arise is the display of the requested data.  The
    sender of a filed request is text, and [speed_text] is the speed as
    the reason of a block prints it. *)
Definition inbox_request (v : visit) (vehicle_did : string)
    (blocked_users : list blocked_user) (request : Dict.dict) (p : platform)
  : flow * platform :=
  let sender_did := match Dict.get "sender_did" request with
                    | Some (JStr s) => s
                    | _ => ""
                    end in
  let displayed := match Dict.get "requested_data" request with
                   | Some x => joinable x
                   | None => true
                   end in
  match Dict.get "content" request with
  | Some content =>
      if negb displayed then (Continue, p) else
      let p1 := count_call p in
      match process_request v content with
      | None => (Continue, p1)
      | Some vehicle_llm_response =>
          if is_listed sender_did blocked_users then (Continue, p1)
          else
            let is_motion_safe := contains "MOTION_SAFE" vehicle_llm_response in
            let is_suspicious := contains "SUSPICIOUS" vehicle_llm_response in
            if negb is_motion_safe && is_suspicious then
              match sensors v with
              | None => (Continue, p1)
              | Some sn =>
                  let speed := default (JNum 0) (Dict.get "speed" sn) in
                  let p2 :=
                    {| did_service := did_service p1;
                       wallet_service :=
                         block_user (now v) vehicle_did sender_did
                           ("Suspicious request while vehicle in motion. Speed: "
                              +:+ speed_text v +:+ " km/h")
                           (wallet_service p1);
                       oracle_calls := oracle_calls p1 |} in
                  (Rerun,
                   send_response v vehicle_did sender_did request
                     [("status", JStr "denied");
                      ("reason", JStr "Request denied - Vehicle in motion and request deemed suspicious User has been blocked due to suspicious activity.");
                      ("ai_response", JStr vehicle_llm_response);
                      ("sensor_data", JObj [("speed", speed); ("timestamp", JStr (now v))]);
                      ("timestamp", JStr (now v))] p2)
              end
            else if is_motion_safe then
              if clicked v ("approve_" +:+ sender_did) then
                match sensors v, Dict.get "requested_data" request ≫= iterate with
                | Some sn, Some requested =>
                    (Rerun,
                     send_response v vehicle_did sender_did request
                       [("status", JStr "approved");
                        ("data", JObj (requested_sensors sn requested));
                        ("ai_response", JStr vehicle_llm_response);
                        ("timestamp", JStr (now v))] p1)
                | _, _ => (Continue, p1)
                end
              else if clicked v ("deny_" +:+ sender_did) then
                (Rerun,
                 send_response v vehicle_did sender_did request
                   [("status", JStr "denied");
                    ("reason", JStr "Request denied by vehicle owner");
                    ("ai_response", JStr vehicle_llm_response);
                    ("timestamp", JStr (now v))] p1)
              else (Continue, p1)
            else (Continue, p1)
      end
  | None => (Continue, p)
  end.

(** The inbox tab for the vehicle: the block list is read once, then the
    pending requests are visited in turn until one ends in a rerun. *)
Fixpoint visit_requests (v : visit) (vehicle_did : string)
    (blocked_users : list blocked_user) (requests : list Dict.dict) (p : platform)
  : flow * platform :=
  match requests with
  | [] => (Continue, p)
  | request :: rest =>
      match inbox_request v vehicle_did blocked_users request p with
      | (Rerun, p1) => (Rerun, p1)
      | (Continue, p1) => visit_requests v vehicle_did blocked_users rest p1
      end
  end.


End Platform.

(* ===================================================================== *)
(** * Sample states *)
(* ===================================================================== *)

Module Samples.
Import BlockchainService AddressManager.

Definition sample_account : address_data :=
  {| address := "0x54b99Dc1C2f505CF0fAA465eCdA78c872b3749cC";
     private_key := "0xd09777239f86e807e5fbd5db02fe4cff51dcbc77b598dfcea6c62aea4117acd8" |}.

(** A ledger on which every test account is funded and nobody is
    registered, with the given answers to the coming transactions. *)
Definition fresh_ledger (up : bool) (outcomes : list bool) : ledger :=
  {| reachable := up;
     balances := list_to_map ((fun d => (address d, 100%Z)) <$> test_accounts);
     registeredAddresses := []; users := ∅; didDocuments := ∅; credentials := ∅;
     didToAddress := ∅; interactions := []; receipts := outcomes |}.

(** The same ledger once the first test account has registered Alice. *)
Definition registered_ledger (up : bool) : ledger :=
  with_user (address sample_account)
    {| user_name := "Alice"; user_type := 0;
       entityDID := "did:ssi:entity:alice"; walletDID := "did:ssi:wallet:alice" |}
    (fresh_ledger up []).

(** The manager started without an address file, after Alice got her
    address. *)
Definition sample_manager : manager :=
  snd (get_address (view (fresh_ledger true [])) "did:ssi:entity:alice"
         (new (view (fresh_ledger true [])) None)).

(** A service started on the fresh ledger, without an address file. *)
Definition fresh_service (outcomes : list bool) : DIDService.did_service :=
  {| DIDService.chain := fresh_ledger true outcomes;
     DIDService.account := ("", "");
     DIDService.address_manager := new (view (fresh_ledger true outcomes)) None;
     DIDService.wallet := ∅ |}.





Definition sample_creation (f : option DIDService.fault) : DIDService.creation :=
  {| DIDService.entity_uuid := "e1"; DIDService.wallet_uuid := "w1";
     DIDService.entity_keys := ("entity-private-pem", "entity-public-pem");
     DIDService.wallet_keys := ("wallet-private-pem", "wallet-public-pem");
     DIDService.entity_created := "2025-01-01T00:00:00";
     DIDService.wallet_created := "2025-01-01T00:00:00";
     DIDService.raises := f |}.

(** A vehicle document as [register_vehicle] stores it, owned by Alice. *)
Definition vehicle_document : json :=
  DIDService.to_dict
    {| DIDService.did := "did:ssi:entity:car";
       DIDService.info :=
         [JObj [("id", JStr "did:ssi:entity:car#vehicle_VIN-1");
                ("manufacturer", JStr "Maker");
                ("owner_did", JStr "did:ssi:entity:alice");
                ("status", JStr "active");
                ("vin", JStr "VIN-1");
                ("make", JStr "Make");
                ("model", JStr "Model");
                ("year", JNum 2024);
                ("color", JStr "red")];
          JObj [("id", JStr "did:ssi:wallet:car#wallet");
                ("type", JStr "WalletLink");
                ("serviceEndpoint", JStr "did:ssi:wallet:car")]];
       DIDService.public_key := "car-public-pem";
       DIDService.created := "2025-01-01T00:00:00";
       DIDService.service_endpoints := [];
       DIDService.type := [JStr "VerifiableCredential"; JStr "Car"];
       DIDService.controller := None;
       DIDService.credentials := [] |}.

Definition vehicle_service (outcomes : list bool) : DIDService.did_service :=
  DIDService.with_chain
    (with_document "did:ssi:entity:car" vehicle_document (fresh_ledger true outcomes))
    (fresh_service outcomes).

Definition insurance_policy : WalletService.policy :=
  {| WalletService.share_with := ["insurance"];
     WalletService.requires_consent := true;
     WalletService.auto_share_emergency := true |}.

Definition insurance_wallet : WalletService.wallet :=
  {| WalletService.wallet_did := "did:ssi:wallet:car";
     WalletService.wallet_type := "vehicle";
     WalletService.policies := {[ "vehicle_info" := insurance_policy ]};
     WalletService.pending_requests := [] |}.

Definition insurance_wallets : WalletService.wallet_service :=
  {| WalletService.wallets := {[ "did:ssi:wallet:car" := insurance_wallet ]};
     WalletService.messages := ∅;
     WalletService.blocked_users := ∅ |}.










End Samples.

(* ===================================================================== *)
(** * Facts about dictionaries *)
(* ===================================================================== *)

(** An equation between closed terms, settled by evaluating its left side
    to its right side. *)
Ltac by_evaluation :=
  match goal with |- ?l = ?r => exact (@eq_refl _ r <: l = r) end.

Section dict_facts.
Implicit Types (d : Dict.dict) (k : string) (v : json).

Lemma dict_set_absent k v d :
  Dict.mem k d = false -> Dict.set k v d = d ++ [(k, v)].
Proof.
  unfold Dict.mem. induction d as [|[k' v'] d IH]; simpl; [done|].
  destruct (String.eqb k' k); [done|].
  intros H. by rewrite IH.
Qed.

Lemma dict_get_app_present k d d' v :
  Dict.get k d = Some v -> Dict.get k (d ++ d') = Some v.
Proof.
  induction d as [|[k' v'] d IH]; simpl; [done|].
  destruct (String.eqb k' k); [done|]. exact IH.
Qed.

Lemma dict_mem_app k d d' :
  Dict.mem k (d ++ d') = Dict.mem k d || Dict.mem k d'.
Proof.
  unfold Dict.mem. induction d as [|[k' v'] d IH]; simpl; [done|].
  destruct (String.eqb k' k); [done|]. exact IH.
Qed.

Lemma dict_del_app_absent k v d d' :
  Dict.mem k d = false -> Dict.del k (d ++ (k, v) :: d') = Some (d ++ d').
Proof.
  unfold Dict.mem. induction d as [|[k' v'] d IH]; simpl.
  - by rewrite String.eqb_refl.
  - destruct (String.eqb k' k); [done|].
    intros H. by rewrite IH.
Qed.

Lemma dict_get_set_eq k v d : Dict.get k (Dict.set k v d) = Some v.
Proof.
  induction d as [|[k' v'] d IH]; simpl.
  - by rewrite String.eqb_refl.
  - destruct (String.eqb k' k) eqn:E; simpl; rewrite E; [done|exact IH].
Qed.

Lemma dict_get_set_ne k k' v d :
  k <> k' -> Dict.get k' (Dict.set k v d) = Dict.get k' d.
Proof.
  intros Hne. induction d as [|[k0 v0] d IH]; simpl.
  - by apply String.eqb_neq in Hne as ->.
  - destruct (String.eqb k0 k) eqn:E; simpl.
    + apply String.eqb_eq in E as ->.
      by apply String.eqb_neq in Hne as ->.
    + destruct (String.eqb k0 k'); [done|exact IH].
Qed.

Lemma dict_set_nonempty k v d : exists kv rest, Dict.set k v d = kv :: rest.
Proof.
  destruct d as [|[k' v'] d]; simpl; [by eexists _, _|].
  destruct (String.eqb k' k); by eexists _, _.
Qed.
End dict_facts.

(* ===================================================================== *)
(** * The envelope codec *)
(* ===================================================================== *)

Section envelope.
Import DIDService.

(** C10.  For a message without the three marker keys, decrypting the
    encrypted message gives the message back, whatever the keys; the
    encrypted form is the message followed by the three markers, so each
    of its fields (the body among them) still reads in the clear; and the
    decryption key plays no part in the result. *)
Theorem envelope_roundtrip (m : Dict.dict) (s r k : string) :
  Dict.mem "encrypted" m = false ->
  Dict.mem "sender_key" m = false ->
  Dict.mem "recipient_key" m = false ->
  decrypt_didcomm_message (encrypt_didcomm_message m s r) k = Some m
  /\ encrypt_didcomm_message m s r
     = m ++ [("encrypted", JBool true); ("sender_key", JStr s); ("recipient_key", JStr r)]
  /\ (forall field v, Dict.get field m = Some v ->
        Dict.get field (encrypt_didcomm_message m s r) = Some v)
  /\ (forall e k', decrypt_didcomm_message e k' = decrypt_didcomm_message e k).
Proof.
  intros He Hs Hr.
  assert (Henc : encrypt_didcomm_message m s r
     = m ++ [("encrypted", JBool true); ("sender_key", JStr s); ("recipient_key", JStr r)]).
  { unfold encrypt_didcomm_message.
    rewrite (dict_set_absent "encrypted") by done.
    rewrite (dict_set_absent "sender_key")
      by (rewrite dict_mem_app, Hs; done).
    rewrite (dict_set_absent "recipient_key")
      by (rewrite !dict_mem_app, Hr; done).
    by rewrite <- !app_assoc. }
  split; [|split; [done|split]].
  - rewrite Henc. unfold decrypt_didcomm_message.
    rewrite dict_del_app_absent by done.
    rewrite dict_del_app_absent by done.
    rewrite dict_del_app_absent by done.
    by rewrite app_nil_r.
  - intros field v Hget. rewrite Henc. by apply dict_get_app_present.
  - done.
Qed.

Lemma envelope_roundtrip_witness :
  decrypt_didcomm_message
    (encrypt_didcomm_message [("type", JStr "request"); ("body", JObj [("speed", JNum 60)])]
       "did:ssi:entity:a#keys-1" "did:ssi:entity:b#keys-1") "any key"
  = Some [("type", JStr "request"); ("body", JObj [("speed", JNum 60)])].
Proof.
  apply (envelope_roundtrip
           [("type", JStr "request"); ("body", JObj [("speed", JNum 60)])]
           "did:ssi:entity:a#keys-1" "did:ssi:entity:b#keys-1" "any key");
    reflexivity.
Defined.
End envelope.

(* ===================================================================== *)
(** * Permission checks *)
(* ===================================================================== *)

Section permission.
Import WalletService Samples.

(** C4.  For a wallet that has a policy for the data type, the result of
    [check_permission] is a function of the requester type, the emergency
    flag and that policy alone, and follows the stated precedence: it is
    [True] exactly when the precedence ends in auto-approval, and [False]
    both for a denial and for the need of a wallet approval.  With
    [share_with = {insurance}], consent required and emergency sharing on,
    an insurance requester gets the need of a wallet approval outside an
    emergency and auto-approval in one. *)
Theorem check_permission_precedence (ws : wallet_service)
    (requester_type owner_did data_type : string) (is_emergency : bool)
    (w : wallet) (p : policy) :
  wallets ws !! owner_did = Some w ->
  policies w !! data_type = Some p ->
  (check_permission ws requester_type owner_did data_type is_emergency = true
     <-> checkPermission_spec requester_type is_emergency p = AutoApproved)
  /\ (is_emergency = true -> auto_share_emergency p = true ->
      check_permission ws requester_type owner_did data_type is_emergency = true)
  /\ (is_emergency && auto_share_emergency p = false ->
      requester_type ∉ share_with p ->
      check_permission ws requester_type owner_did data_type is_emergency = false
      /\ checkPermission_spec requester_type is_emergency p = AutoDenied)
  /\ (is_emergency && auto_share_emergency p = false ->
      requester_type ∈ share_with p ->
      requires_consent p = true -> is_emergency = false ->
      check_permission ws requester_type owner_did data_type is_emergency = false
      /\ checkPermission_spec requester_type is_emergency p = NeedsWalletApproval)
  /\ (is_emergency && auto_share_emergency p = false ->
      requester_type ∈ share_with p ->
      requires_consent p && negb is_emergency = false ->
      check_permission ws requester_type owner_did data_type is_emergency = true)
  /\ (p = insurance_policy ->
      check_permission ws "insurance" owner_did data_type false = false
      /\ checkPermission_spec "insurance" false p = NeedsWalletApproval
      /\ check_permission ws "insurance" owner_did data_type true = true
      /\ checkPermission_spec "insurance" true p = AutoApproved).
Proof.
  intros Hw Hp.
  assert (Hcode : forall r e,
    check_permission ws r owner_did data_type e =
    match checkPermission_spec r e p with AutoApproved => true | _ => false end).
  { intros r e. unfold check_permission, checkPermission_spec.
    rewrite Hw, Hp.
    destruct (e && auto_share_emergency p); [done|].
    destruct (negb (bool_decide (r ∈ share_with p))); [done|].
    by destruct (requires_consent p && negb e). }
  split; [|split; [|split; [|split; [|split]]]].
  - rewrite Hcode. by destruct (checkPermission_spec _ _ _).
  - intros -> Ha. rewrite Hcode. unfold checkPermission_spec. by rewrite Ha.
  - intros He Hn. rewrite Hcode. unfold checkPermission_spec. rewrite He.
    by rewrite bool_decide_eq_false_2.
  - intros He Hi Hc ->. rewrite Hcode. unfold checkPermission_spec. rewrite He.
    rewrite bool_decide_eq_true_2 by done. by rewrite Hc.
  - intros He Hi Hc. rewrite Hcode. unfold checkPermission_spec. rewrite He.
    rewrite bool_decide_eq_true_2 by done. by rewrite Hc.
  - intros ->. rewrite !Hcode. by vm_compute.
Qed.

Lemma check_permission_precedence_witness :
  check_permission insurance_wallets "insurance" "did:ssi:wallet:car" "vehicle_info" false
    = false
  /\ check_permission insurance_wallets "insurance" "did:ssi:wallet:car" "vehicle_info" true
    = true.
Proof.
  destruct (check_permission_precedence insurance_wallets "insurance"
              "did:ssi:wallet:car" "vehicle_info" false
              insurance_wallet insurance_policy)
    as (_ & _ & _ & _ & _ & H).
  - reflexivity.
  - reflexivity.
  - destruct (H eq_refl) as (H1 & _ & H2 & _). split; assumption.
Defined.
End permission.

(* ===================================================================== *)
(** * The address pool *)
(* ===================================================================== *)

Section pool.
Import BlockchainService AddressManager Samples.
Implicit Types (cv : chain_view) (m : manager) (x y a : string) (d : address_data).















(** C8.  An identity that holds a binding gets that binding from
    [get_address], and the manager is left as it was; so does every
    call of a series of calls. *)
Theorem get_address_idempotent cv (cvs : list chain_view) x m d :
  used (addresses m) !! x = Some d ->
  get_address cv x m = (Some (address d, private_key d), m)
  /\ get_address_repeatedly cvs x m
     = (replicate (length cvs) (Some (address d, private_key d)), m).
Proof.
  intros Hx.
  assert (H1 : forall cv', get_address cv' x m = (Some (address d, private_key d), m)).
  { intros cv'. unfold get_address. by rewrite Hx. }
  split; [apply H1|].
  induction cvs as [|cv' rest IH]; simpl; [done|].
  by rewrite H1, IH.
Qed.

Lemma get_address_idempotent_witness :
  get_address_repeatedly
    [view (fresh_ledger true []); view (registered_ledger true);
     view (fresh_ledger false [])]
    "did:ssi:entity:alice" sample_manager
  = (replicate 3 (Some (address sample_account, private_key sample_account)),
     sample_manager).
Proof.
  apply (get_address_idempotent (view (fresh_ledger true []))
           [view (fresh_ledger true []); view (registered_ledger true);
            view (fresh_ledger false [])]
           "did:ssi:entity:alice" sample_manager sample_account).
  by vm_compute.
Defined.

(** C5 as stated fails: releasing an identity whose address is registered
    removes the binding, so the pool is not left as it was. *)
Lemma release_registered_drops_binding :
  let cv := view (registered_ledger true) in
  used (addresses sample_manager) !! "did:ssi:entity:alice" = Some sample_account
  /\ is_address_registered cv (address sample_account) = true
  /\ release_address cv "did:ssi:entity:alice" sample_manager <> sample_manager
  /\ used (addresses (release_address cv "did:ssi:entity:alice" sample_manager))
       !! "did:ssi:entity:alice" = None.
Proof.
  cbv zeta. split; [by vm_compute|]. split; [by vm_compute|]. split.
  - intros H. apply (f_equal (fun m => used (addresses m) !! "did:ssi:entity:alice")) in H.
    vm_compute in H. discriminate.
  - by vm_compute.
Qed.

(** C5, amended.  [release_address] leaves the manager untouched for an
    identity without a binding.  For an identity whose address the ledger
    reports as registered, the available list is unchanged (the address
    does not go back to it), the identity's binding is removed, every other
    binding is kept, and the pool is saved. *)
Theorem release_address_safe cv x m :
  (used (addresses m) !! x = None -> release_address cv x m = m)
  /\ (forall d, used (addresses m) !! x = Some d ->
      is_address_registered cv (address d) = true ->
      let m' := release_address cv x m in
      available (addresses m') = available (addresses m)
      /\ used (addresses m') = delete x (used (addresses m))
      /\ used (addresses m') !! x = None
      /\ (forall y, y <> x -> used (addresses m') !! y = used (addresses m) !! y)
      /\ addresses_file m' = Some (addresses m')).
Proof.
  unfold release_address. split.
  - by intros ->.
  - intros d -> ->. simpl.
    split; [done|]. split; [done|]. split; [apply lookup_delete_eq|].
    split; [|done]. intros y Hy. by apply lookup_delete_ne.
Qed.

Lemma release_address_safe_witness :
  release_address (view (registered_ledger true)) "did:ssi:entity:bob" sample_manager
    = sample_manager
  /\ available (addresses (release_address (view (registered_ledger true))
                             "did:ssi:entity:alice" sample_manager))
     = available (addresses sample_manager).
Proof.
  split.
  - apply (release_address_safe (view (registered_ledger true)) "did:ssi:entity:bob"
             sample_manager).
    by vm_compute.
  - apply (proj2 (release_address_safe (view (registered_ledger true))
                    "did:ssi:entity:alice" sample_manager) sample_account).
    + by vm_compute.
    + by vm_compute.
Defined.



End pool.

(* ===================================================================== *)
(** * Ownership transfers *)
(* ===================================================================== *)

Section ownership.
Import BlockchainService AddressManager DIDService Samples.

Lemma owner_history_read doc current previous :
  owner_history doc current previous ->
  previous_owners_of (JObj doc) = previous /\ owner_did_of (JObj doc) = Some current.
Proof.
  intros (oi & rest & Hi & Ho & Hp).
  unfold previous_owners_of, owner_did_of, first_info. rewrite Hi. split; [|done].
  by destruct Hp as [->|[-> ->]].
Qed.

Lemma transfer_owner_history new_owner doc current previous :
  owner_history doc current previous ->
  exists kv doc', transfer_owner new_owner doc = Some (kv :: doc')
    /\ owner_history (kv :: doc') new_owner (previous ++ [current]).
Proof.
  intros (oi & rest & Hi & Ho & Hp).
  unfold transfer_owner. rewrite Hi, Ho. simpl.
  assert (Happ : exists oi1, append_to "previous_owners" current oi = Some oi1
            /\ Dict.get "previous_owners" oi1 = Some (JArr (previous ++ [current]))).
  { unfold append_to. destruct Hp as [->|[-> ->]]; eexists; (split; [done|]);
      apply dict_get_set_eq. }
  destruct Happ as (oi1 & -> & Hget).
  destruct (dict_set_nonempty "info"
              (JArr (JObj (Dict.set "owner_did" new_owner oi1) :: rest)) doc)
    as (kv & doc' & Hset).
  exists kv, doc'. split; [by rewrite Hset|].
  exists (Dict.set "owner_did" new_owner oi1), rest. rewrite <- Hset.
  split; [apply dict_get_set_eq|]. split; [apply dict_get_set_eq|].
  left. by rewrite dict_get_set_ne.
Qed.

Lemma chain_set_account_address d s : chain (set_account_address d s) = chain s.
Proof.
  unfold set_account_address, acquire.
  destruct (get_address _ _ _) as [[[a k]|] m]; simpl; [|done].
  by destruct (String.eqb a "" || String.eqb k "").
Qed.

Lemma update_transfers_owner new_owner car s doc current previous later :
  car <> "" ->
  reachable (chain s) = true ->
  receipts (chain s) = true :: later ->
  didDocuments (chain s) !! car = Some (JObj doc) ->
  owner_history doc current previous ->
  exists s' doc',
    update_did_document new_owner (Some car) None s = (Some true, s')
    /\ reachable (chain s') = true
    /\ receipts (chain s') = later
    /\ didDocuments (chain s') !! car = Some (JObj doc')
    /\ owner_history doc' (JStr new_owner) (previous ++ [current]).
Proof.
  intros Hcar Hr Hrec Hdoc Hh.
  destruct (transfer_owner_history (JStr new_owner) _ _ _ Hh)
    as (kv & doc' & Ht & Hh').
  unfold update_did_document. simpl.
  apply String.eqb_neq in Hcar as ->. simpl.
  pose proof (chain_set_account_address car s) as Hc.
  destruct (set_account_address car s) as [l acc mgr keys]. simpl in Hc. subst l.
  simpl. unfold get_did_document. rewrite Hr, Hdoc.
  destruct doc as [|kv0 doc0].
  { destruct Hh as (? & ? & Hi & _). done. }
  rewrite Ht. unfold store_did_document, transact. rewrite Hr, Hrec. simpl.
  eexists _, (kv :: doc'). split; [done|]. simpl.
  split; [done|]. split; [done|]. split; [apply lookup_insert_eq|done].
Qed.

Lemma transfer_all_history owners : forall car s doc current previous later,
  car <> "" ->
  reachable (chain s) = true ->
  receipts (chain s) = replicate (length owners) true ++ later ->
  didDocuments (chain s) !! car = Some (JObj doc) ->
  owner_history doc current previous ->
  exists s' doc',
    transfer_all car owners s = (replicate (length owners) (Some true), s')
    /\ receipts (chain s') = later
    /\ didDocuments (chain s') !! car = Some (JObj doc')
    /\ exists current' previous',
         owner_history doc' current' previous'
         /\ previous' ++ [current'] = previous ++ current :: (JStr <$> owners).
Proof.
  induction owners as [|o rest IH]; intros car s doc current previous later
    Hcar Hr Hrec Hdoc Hh; simpl.
  - exists s, doc. split; [done|]. split; [done|]. split; [done|].
    by exists current, previous.
  - simpl in Hrec.
    destruct (update_transfers_owner o car s doc current previous _
                Hcar Hr Hrec Hdoc Hh) as (s1 & doc1 & -> & Hr1 & Hrec1 & Hdoc1 & Hh1).
    destruct (IH car s1 doc1 _ _ later Hcar Hr1 Hrec1 Hdoc1 Hh1)
      as (s2 & doc2 & -> & Hrec2 & Hdoc2 & cur' & prev' & Hh2 & Heq).
    exists s2, doc2. split; [done|]. split; [done|]. split; [done|].
    exists cur', prev'. split; [done|]. by rewrite Heq, <- app_assoc.
Qed.

(** C7.  A vehicle document as [register_vehicle] stores it names an owner
    in its first [info] block and has no [previous_owners] yet.  When the
    ledger answers and mines each update, [N] successive transfers to
    [o1 .. oN] all succeed and leave a document whose [previous_owners]
    are the initial owner followed by [o1 .. o(N-1)], in that order, hence
    [N] of them, and whose [owner_did] is [oN]. *)
Theorem ownership_transfer_history (car : string) (owners : list string)
    (s : did_service) (doc owner_info : Dict.dict) (rest : list json)
    (o0 : json) (later : list bool) :
  car <> "" ->
  reachable (chain s) = true ->
  receipts (chain s) = replicate (length owners) true ++ later ->
  didDocuments (chain s) !! car = Some (JObj doc) ->
  Dict.get "info" doc = Some (JArr (JObj owner_info :: rest)) ->
  Dict.get "owner_did" owner_info = Some o0 ->
  Dict.get "previous_owners" owner_info = None ->
  exists s' doc',
    transfer_all car owners s = (replicate (length owners) (Some true), s')
    /\ didDocuments (chain s') !! car = Some doc'
    /\ previous_owners_of doc' = take (length owners) (o0 :: (JStr <$> owners))
    /\ length (previous_owners_of doc') = length owners
    /\ owner_did_of doc' = last (o0 :: (JStr <$> owners)).
Proof.
  intros Hcar Hr Hrec Hdoc Hi Ho Hp.
  destruct (transfer_all_history owners car s doc o0 [] later Hcar Hr Hrec Hdoc)
    as (s' & doc' & Hrun & _ & Hdoc' & cur' & prev' & Hh & Heq).
  { exists owner_info, rest. split; [done|]. split; [done|]. by right. }
  exists s', (JObj doc'). split; [done|]. split; [done|].
  destruct (owner_history_read _ _ _ Hh) as [-> ->].
  simpl in Heq.
  assert (Hlen : length prev' = length owners).
  { apply (f_equal length) in Heq. rewrite length_app in Heq. simpl in Heq.
    rewrite length_fmap in Heq. lia. }
  split; [|split; [done|]].
  - rewrite <- Heq, <- Hlen. by rewrite take_app_length.
  - by rewrite <- Heq, last_snoc.
Qed.

Lemma ownership_transfer_history_witness :
  exists s' doc',
    transfer_all "did:ssi:entity:car" ["did:ssi:entity:bob"; "did:ssi:entity:carol"]
      (vehicle_service [true; true]) = ([Some true; Some true], s')
    /\ didDocuments (chain s') !! "did:ssi:entity:car" = Some doc'
    /\ previous_owners_of doc' = [JStr "did:ssi:entity:alice"; JStr "did:ssi:entity:bob"]
    /\ owner_did_of doc' = Some (JStr "did:ssi:entity:carol").
Proof.
  destruct (ownership_transfer_history "did:ssi:entity:car"
              ["did:ssi:entity:bob"; "did:ssi:entity:carol"]
              (vehicle_service [true; true])
              (match vehicle_document with JObj d => d | _ => [] end)
              (first_info vehicle_document)
              [JObj [("id", JStr "did:ssi:wallet:car#wallet");
                     ("type", JStr "WalletLink");
                     ("serviceEndpoint", JStr "did:ssi:wallet:car")]]
              (JStr "did:ssi:entity:alice") [])
    as (s' & doc' & Hrun & Hdoc & Hprev & _ & Howner).
  - done.
  - reflexivity.
  - reflexivity.
  - by vm_compute.
  - reflexivity.
  - reflexivity.
  - reflexivity.
  - exists s', doc'. split; [exact Hrun|]. split; [exact Hdoc|].
    split; [exact Hprev|exact Howner].
Defined.
End ownership.

(* ===================================================================== *)
(** * Creation of an identity *)
(* ===================================================================== *)

Section creation.
Import BlockchainService AddressManager DIDService Samples.
Implicit Types (s : did_service) (l : ledger) (e : creation).

Lemma acquire_binds x s a k s1 :
  acquire x s = (Some (a, k), s1) ->
  chain s1 = chain s /\ account s1 = account s /\ wallet s1 = wallet s
  /\ exists d, used (addresses (address_manager s1)) !! x = Some d
               /\ address d = a /\ private_key d = k.
Proof.
  unfold acquire.
  destruct (get_address _ x (address_manager s)) as [info m] eqn:Hget.
  intros H. injection H as -> <-. simpl.
  split; [done|]. split; [done|]. split; [done|].
  unfold get_address in Hget.
  destruct (used (addresses (address_manager s)) !! x) as [d|] eqn:Hx.
  - injection Hget as <- <- <-. by exists d.
  - assert (Ht : forall m0, take_first x m0 = (Some (a, k), m) ->
              exists d, used (addresses m) !! x = Some d
                        /\ address d = a /\ private_key d = k).
    { intros m0. unfold take_first.
      destruct (available (addresses m0)) as [|d rest]; [done|].
      intros H. injection H as <- <- <-. exists d. simpl.
      by rewrite lookup_insert_eq. }
    destruct (available (addresses (address_manager s))); eauto.
Qed.

Lemma release_unbinds x s d :
  used (addresses (address_manager s)) !! x = Some d ->
  chain (release x s) = chain s
  /\ used (addresses (address_manager (release x s))) !! x = None
  /\ (forall y, y <> x ->
        used (addresses (address_manager (release x s))) !! y
        = used (addresses (address_manager s)) !! y)
  /\ available (addresses (address_manager (release x s)))
     = available (addresses (address_manager s))
       ++ (if is_address_registered (view (chain s)) (address d) then [] else [d]).
Proof.
  intros Hx. unfold release, release_address. rewrite Hx.
  destruct (is_address_registered _ _); simpl.
  - split; [done|]. split; [apply lookup_delete_eq|].
    split; [|by rewrite app_nil_r]. intros y Hy. by apply lookup_delete_ne.
  - split; [done|]. split; [apply lookup_delete_eq|].
    split; [|done]. intros y Hy. by apply lookup_delete_ne.
Qed.

Lemma transact_mined effect l l' :
  transact effect l = (true, l') ->
  exists r, receipts l = true :: r /\ l' = effect (with_receipts r l).
Proof.
  unfold transact. destruct (reachable l); [|done].
  destruct (receipts l) as [|[] r]; [done| |done].
  intros H. injection H as <-. by exists r.
Qed.

Lemma register_user_mined a name ut ed wd l l' :
  register_user a name ut ed wd l = (true, l') ->
  exists r, receipts l = true :: r /\ receipts l' = r.
Proof.
  unfold register_user. destruct (UserType _); [|done].
  destruct (negb (reachable l)); [done|].
  destruct (users l !! a); [done|].
  intros H. apply transact_mined in H as (r & Hr & ->). by exists r.
Qed.

Lemma store_did_document_mined d doc l l' :
  store_did_document d doc l = (true, l') ->
  exists r, receipts l = true :: r /\ receipts l' = r.
Proof.
  unfold store_did_document.
  intros H. apply transact_mined in H as (r & Hr & ->). by exists r.
Qed.

(** C6 as stated fails on both counts.  When the entity document cannot
    be stored, the address is by then registered and does not go back to
    the available list; when storing the keys raises, the binding of the
    new identity stays in the used map although [None] is returned. *)
Lemma create_did_address_not_returned_and_binding_kept :
  (let out := create_did (sample_creation None) "individual" "Alice"
                (fresh_service [true; false]) in
   fst out = None
   /\ (address sample_account
         ∉ (address <$> available (addresses (address_manager (snd out)))))
   /\ is_address_registered (view (chain (snd out))) (address sample_account) = true)
  /\ (let out := create_did (sample_creation (Some KeyStorage)) "individual" "Alice"
                   (fresh_service [true; true; true]) in
      fst out = None
      /\ used (addresses (address_manager (snd out))) !! "did:ssi:entity:e1"
         = Some sample_account).
Proof.
  cbv zeta. split; [split; [|split]|split].
  - by vm_compute.
  - apply (bool_decide_unpack _). by vm_compute.
  - by vm_compute.
  - by vm_compute.
  - by vm_compute.
Qed.

(** C6, amended.  Once the address is acquired and as long as no call
    raises, a creation that is not answered by three mined transactions
    (the registration, the entity document, the wallet document) returns
    [None]; and whenever it returns [None] the binding of the new identity
    is gone from the used map, the other bindings are kept, and the
    address is put back at the end of the available list exactly when the
    ledger does not report it as registered. *)
Theorem create_did_compensation e (user_type name a k : string) s s1 :
  acquire (entity_did_of e) s = (Some (a, k), s1) ->
  raises e = None ->
  (take 3 (receipts (chain s)) <> [true; true; true] ->
   fst (create_did e user_type name s) = None)
  /\ (fst (create_did e user_type name s) = None ->
      let s' := snd (create_did e user_type name s) in
      exists d,
        used (addresses (address_manager s1)) !! entity_did_of e = Some d
        /\ address d = a
        /\ used (addresses (address_manager s')) !! entity_did_of e = None
        /\ (forall y, y <> entity_did_of e ->
              used (addresses (address_manager s')) !! y
              = used (addresses (address_manager s1)) !! y)
        /\ available (addresses (address_manager s'))
           = available (addresses (address_manager s1))
             ++ (if is_address_registered (view (chain s')) a then [] else [d])).
Proof.
  intros Hacq Hraise.
  destruct (acquire_binds _ _ _ _ _ Hacq) as (Hchain & _ & _ & d & Hd & Ha & Hk).
  unfold create_did. rewrite Hacq. unfold raises_at. rewrite Hraise.
  cbn [negb]. cbv iota.
  destruct (register_user a name user_type _ _ _) as [success l3] eqn:Hreg.
  cbn [chain with_account with_chain] in Hreg.
  destruct success; cbn [negb]; cbv iota.
  2:{ split; [done|]. intros _. cbn [snd]. exists d.
      destruct (release_unbinds (entity_did_of e)
                  (with_chain l3 (with_account (a, k) s1)) d Hd)
        as (Hc & Hn & Ho & Hav).
      rewrite Hc. subst a. done. }
  apply register_user_mined in Hreg as (r1 & Hr1 & Hr1').
  destruct (store_did_document (entity_did_of e) _ _) as [status l5] eqn:Hst1.
  cbn [chain with_keys with_chain with_account] in Hst1.
  destruct status; cbn [negb]; cbv iota.
  2:{ split; [done|]. intros _. cbn [snd]. exists d.
      match goal with |- context [release _ ?sx] =>
        destruct (release_unbinds (entity_did_of e) sx d Hd) as (Hc & Hn & Ho & Hav)
      end.
      rewrite Hc. subst a. done. }
  apply store_did_document_mined in Hst1 as (r2 & Hr2 & Hr2').
  destruct (store_did_document (wallet_did_of e) _ _) as [status l6] eqn:Hst2.
  cbn [chain with_keys with_chain with_account] in Hst2.
  destruct status; cbn [negb]; cbv iota.
  2:{ split; [done|]. intros _. cbn [snd]. exists d.
      match goal with |- context [release _ ?sx] =>
        destruct (release_unbinds (entity_did_of e) sx d Hd) as (Hc & Hn & Ho & Hav)
      end.
      rewrite Hc. subst a. done. }
  apply store_did_document_mined in Hst2 as (r3 & Hr3 & Hr3').
  split; [|done].
  intros Hnot. exfalso. apply Hnot.
  rewrite <- Hchain, Hr1. rewrite Hr1' in Hr2. rewrite Hr2.
  rewrite Hr2' in Hr3. by rewrite Hr3.
Qed.

Lemma create_did_compensation_witness :
  fst (create_did (sample_creation None) "individual" "Alice"
         (fresh_service [true; false])) = None.
Proof.
  refine (proj1 (create_did_compensation (sample_creation None) "individual" "Alice"
                   (address sample_account) (private_key sample_account)
                   (fresh_service [true; false])
                   (snd (acquire "did:ssi:entity:e1" (fresh_service [true; false])))
                   _ _) _).
  - by_evaluation.
  - reflexivity.
  - vm_compute. discriminate.
Defined.
End creation.

(* ===================================================================== *)
(** * Credentials *)
(* ===================================================================== *)

Section credentials.
Import BlockchainService AddressManager DIDService Samples.



End credentials.

(* ===================================================================== *)
(** * The oracle's answer *)
(* ===================================================================== *)

Section oracle_text.
Import Text BlockchainService Server Samples.











End oracle_text.

(* ===================================================================== *)
(** * The inbox and the block list *)
(* ===================================================================== *)

Section inbox.
Import WalletService Platform Samples.



End inbox.
